(** * docs/conf.py: the Sphinx build configuration of the Solang documentation

    A shallow embedding of [docs/conf.py].  The module is executed top to
    bottom by the documentation generator; its statements import the lexer
    library, define the [setup] hook, bind the project metadata, run
    [git describe] twice through [os.popen] and bind the remaining options.

    Python [str] values are modelled as [string]; a character is a code
    point below 256. *)

From Stdlib Require Import Ascii String NArith Bool List.
From stdpp Require Import base option gmap strings list fin_maps.

Local Open Scope string_scope.

(** ** Text: what [readline] and [strip] do *)

Module Text.

(** The line feed and carriage return characters. *)
Definition LF : ascii := "010"%char.
Definition CR : ascii := "013"%char.

(** [str.isspace] on one character: the code points Python treats as
    white space, 0x09-0x0d, 0x1c-0x20, 0x85 and 0xa0. *)
Definition isspace (c : ascii) : bool :=
  let n := N_of_ascii c in
  ((9 <=? n) && (n <=? 13) || (28 <=? n) && (n <=? 32) || (n =? 133) || (n =? 160))%N.

Definition is_line_end (c : ascii) : bool :=
  (Ascii.eqb c LF || Ascii.eqb c CR)%bool.

(** The text layer of the pipe returned by [os.popen]: an [io.TextIOWrapper]
    with [newline=None], which hands out every ["\r\n"] and every lone
    ["\r"] as ["\n"]. *)
Fixpoint universal_newlines (s : string) : string :=
  match s with
  | EmptyString => EmptyString
  | String c s' =>
      if Ascii.eqb c CR then
        String LF
          match s' with
          | EmptyString => EmptyString
          | String c' s'' =>
              if Ascii.eqb c' LF then universal_newlines s''
              else universal_newlines s'
          end
      else String c (universal_newlines s')
  end.

(** [file.readline()] at the start of a text stream: the characters up to
    and including the first ["\n"], or the whole text when it has none. *)
Fixpoint readline (s : string) : string :=
  match s with
  | EmptyString => EmptyString
  | String c s' =>
      if Ascii.eqb c LF then String LF EmptyString else String c (readline s')
  end.

(** [str.lstrip()], [str.rstrip()] and [str.strip()] with no argument. *)
Fixpoint lstrip (s : string) : string :=
  match s with
  | EmptyString => EmptyString
  | String c s' => if isspace c then lstrip s' else s
  end.

Fixpoint rstrip (s : string) : string :=
  match s with
  | EmptyString => EmptyString
  | String c s' =>
      match rstrip s' with
      | EmptyString => if isspace c then EmptyString else String c EmptyString
      | r => String c r
      end
  end.

Definition strip (s : string) : string := rstrip (lstrip s).

(** Every character of [s] satisfies [p]. *)
Fixpoint all_chars (p : ascii -> bool) (s : string) : bool :=
  match s with
  | EmptyString => true
  | String c s' => p c && all_chars p s'
  end.

(** The first character of [s], if any, and the last one. *)
Definition first_char (s : string) : option ascii :=
  match s with
  | EmptyString => None
  | String c _ => Some c
  end.

Fixpoint last_char (s : string) : option ascii :=
  match s with
  | EmptyString => None
  | String c EmptyString => Some c
  | String _ s' => last_char s'
  end.

End Text.

Import Text.

(** ** Python values, exceptions and the interpreter monad *)

(** The values the module binds: strings, booleans, lists, the [os] module
    object, the [setup] function object and the class objects the lexer
    library exports. *)
#[warnings="-register-all"]
Inductive pyval : Type :=
| PStr (s : string)
| PBool (b : bool)
| PList (items : list pyval)
| PModule (name : string)
| PFunction (name : string)
| PClass (qualname : string).

Inductive exn : Type :=
| ModuleNotFoundError (module : string)
| ImportError (module name : string)
| NameError (name : string)
| AttributeError (attr : string)
| RuntimeError (msg : string).

(** A statement either returns or raises; in both cases the state it has
    reached is kept, as the effects of the statements already executed are
    not undone by a Python exception. *)
Inductive outcome (S A : Type) : Type :=
| Return (a : A) (s : S)
| Raise (e : exn) (s : S).
Arguments Return {S A} a s.
Arguments Raise {S A} e s.

Definition M (S A : Type) : Type := S -> outcome S A.

Definition ret {S A} (a : A) : M S A := fun s => Return a s.
Definition raise {S A} (e : exn) : M S A := fun s => Raise e s.
Definition bind {S A B} (c : M S A) (k : A -> M S B) : M S B :=
  fun s =>
    match c s with
    | Return a s' => k a s'
    | Raise e s' => Raise e s'
    end.

Declare Scope py_scope.
Delimit Scope py_scope with py.
Notation "'let*' x ':=' c 'in' k" := (bind c (fun x => k))
  (at level 10, x name, c at level 100, k at level 200) : py_scope.
Notation "c >> k" := (bind c (fun _ => k))
  (at level 100, k at level 200, right associativity) : py_scope.
Local Open Scope py_scope.

(** ** The host: installed packages and the shell *)

(** What a finished child process leaves behind. *)
Record process : Type := {
  stdout : string;
  stderr : string;
  returncode : nat
}.

(** The machine the build runs on: the third-party modules that can be
    imported, each with its attributes, and what [/bin/sh -c cmd] does. *)
Record host : Type := {
  site_packages : gmap string (gmap string pyval);
  shell : string -> process
}.

(** The state of the interpreter while it executes the module: the module's
    global namespace and the shell commands spawned so far, oldest first. *)
Record interp : Type := {
  globals : gmap string pyval;
  spawned : list string
}.

Definition fresh : interp := {| globals := ∅; spawned := [] |}.

(** [name = v] at module level. *)
Definition store (name : string) (v : pyval) : M interp unit :=
  fun st => Return tt {| globals := <[name := v]> (globals st); spawned := spawned st |}.

(** The two steps of [from module import name]: find the module, then read
    the attribute. *)
Definition import_module (h : host) (module : string) : M interp (gmap string pyval) :=
  fun st =>
    match site_packages h !! module with
    | Some attrs => Return attrs st
    | None => Raise (ModuleNotFoundError module) st
    end.

Definition import_from (module : string) (attrs : gmap string pyval) (name : string)
  : M interp pyval :=
  fun st =>
    match attrs !! name with
    | Some v => Return v st
    | None => Raise (ImportError module name) st
    end.

(** [os.popen(cmd)]: the command is handed to the shell and the child's
    standard output comes back as a text stream.  Neither the standard error
    nor the exit status of the child is looked at.

    [stdout] is the text the child's bytes decode to in the locale encoding.
    A child whose bytes do not decode makes [readline] raise
    [UnicodeDecodeError] and stops the load at that statement; such children
    are not among the hosts described here, so every statement below that
    says a load returns speaks of children whose output decodes. *)
Definition popen (h : host) (cmd : string) : M interp string :=
  fun st =>
    Return (universal_newlines (stdout (shell h cmd)))
           {| globals := globals st; spawned := spawned st ++ [cmd] |}.

(** ** The module body *)

Definition lexer_module : string := "pygments_lexer_solidity".
Definition describe_nearest : string := "git describe --tags --abbrev=0".
Definition describe_full : string := "git describe --tags".

Definition conf_py (h : host) : M interp unit :=
  (* import os *)
  store "os" (PModule "os") >>
  (* from pygments_lexer_solidity import SolidityLexer, YulLexer *)
  (let* attrs := import_module h lexer_module in
   (let* c := import_from lexer_module attrs "SolidityLexer" in store "SolidityLexer" c) >>
   (let* c := import_from lexer_module attrs "YulLexer" in store "YulLexer" c)) >>
  (* def setup(sphinx): ... *)
  store "setup" (PFunction "setup") >>
  store "project" (PStr "Solang Solidity Compiler") >>
  store "copyright" (PStr "2019 - 2023 Solang Maintainers") >>
  store "author" (PStr "Sean Young <sean@mess.org>, Cyrill Leutwiler <bigcyrill@hotmail.com>, Lucas Steuernagel <lucas.tnagel@gmail.com>") >>
  (let* out := popen h describe_nearest in
   store "version" (PStr (strip (readline out)))) >>
  (let* out := popen h describe_full in
   store "release" (PStr (strip (readline out)))) >>
  store "extensions" (PList [PStr "sphinx_tabs.tabs"]) >>
  store "sphinx_tabs_disable_tab_closing" (PBool true) >>
  store "templates_path" (PList [PStr "_templates"]) >>
  store "exclude_patterns" (PList []) >>
  store "html_theme" (PStr "sphinx_rtd_theme") >>
  store "master_doc" (PStr "index").

(** ** The [setup] hook and the documentation generator *)

(** What [setup] needs of the object it is given: a method [add_lexer].  The
    generator keeps a table of lexers by language name, and a call of
    [add_lexer] that returns has put the lexer under the alias. *)
Class Generator (G : Type) : Type := {
  lexer_table : G -> gmap string pyval;
  add_lexer : string -> pyval -> M G unit;
  add_lexer_returns : forall alias lexer g g',
    add_lexer alias lexer g = Return tt g' ->
    lexer_table g' = <[alias := lexer]> (lexer_table g)
}.

(** Reading a global of the module from inside a function body. *)
Definition load_global {S} (ns : gmap string pyval) (name : string) : M S pyval :=
  match ns !! name with
  | Some v => ret v
  | None => raise (NameError name)
  end.

(** [def setup(sphinx)], called with the module's globals [ns] as they are
    at the time of the call. *)
Definition setup {G} `{Generator G} (ns : gmap string pyval) : M G unit :=
  (let* c := load_global ns "SolidityLexer" in add_lexer "Solidity" c) >>
  (let* c := load_global ns "YulLexer" in add_lexer "Yul" c).

(** Sphinx itself: [add_lexer] stores the class in the process-wide
    dictionary [lexer_classes] and cannot fail. *)
Record sphinx_app : Type := { lexer_classes : gmap string pyval }.

#[export] Instance sphinx_generator : Generator sphinx_app.
Proof.
  refine {| lexer_table := lexer_classes;
            add_lexer := fun alias lexer app =>
              Return tt {| lexer_classes := <[alias := lexer]> (lexer_classes app) |} |}.
  intros alias lexer g g' [= <-]. reflexivity.
Defined.

(** A generator that takes no lexer: every call of [add_lexer] raises. *)
Record sealed_app : Type := { sealed_lexers : gmap string pyval }.

#[export] Instance sealed_generator : Generator sealed_app.
Proof.
  refine {| lexer_table := sealed_lexers;
            add_lexer := fun alias lexer app => Raise (RuntimeError "registry is sealed") app |}.
  intros alias lexer g g' Hret. discriminate Hret.
Defined.

(** ** The host's version-control tool

    [git] is not part of the repository.  The four situations below are the
    ones the build can meet; in each, [git describe] behaves as its manual
    page says: it prints the name of the nearest tag (followed, without
    [--abbrev=0] and when the checked-out commit lies past the tag, by
    [-<count>-g<hash>]) and a line feed on its standard output, or it
    prints a diagnostic on its standard error and exits with a failure. *)
Inductive vcs_state : Type :=
| ToolAbsent
| NotARepository
| NoTags
| Tagged (tag suffix : string).

Definition nl : string := String LF EmptyString.

Definition git_describe (s : vcs_state) (abbrev0 : bool) : process :=
  match s with
  | ToolAbsent =>
      {| stdout := ""; stderr := "sh: 1: git: not found" ++ nl; returncode := 127 |}
  | NotARepository =>
      {| stdout := "";
         stderr := "fatal: not a git repository (or any of the parent directories): .git" ++ nl;
         returncode := 128 |}
  | NoTags =>
      {| stdout := "";
         stderr := "fatal: No names found, cannot describe anything." ++ nl;
         returncode := 128 |}
  | Tagged tag suffix =>
      {| stdout := (if abbrev0 then tag else tag ++ suffix) ++ nl;
         stderr := "";
         returncode := 0 |}
  end.

(** A host with the packages [pkgs] whose shell finds the repository in the
    state [s]. *)
Definition git_host (pkgs : gmap string (gmap string pyval)) (s : vcs_state) : host :=
  {| site_packages := pkgs;
     shell := fun cmd =>
       if String.eqb cmd describe_nearest then git_describe s true
       else if String.eqb cmd describe_full then git_describe s false
       else {| stdout := ""; stderr := "sh: 1: " ++ cmd ++ ": not found" ++ nl;
               returncode := 127 |} |}.

(** ** Auxiliary definitions used in the statements *)

Definition not_CR (c : ascii) : bool := negb (Ascii.eqb c CR).
Definition not_LF (c : ascii) : bool := negb (Ascii.eqb c LF).
Definition not_line_end (c : ascii) : bool := negb (is_line_end c).
Definition not_space (c : ascii) : bool := negb (isspace c).

(** The characters of [s] up to the first line feed, which is left out. *)
Fixpoint first_line (s : string) : string :=
  match s with
  | EmptyString => EmptyString
  | String c s' => if Ascii.eqb c LF then EmptyString else String c (first_line s')
  end.

(** The text handed out by the pipe for a child that wrote [out], read and
    stripped as the module does. *)
Definition first_line_stripped (out : string) : string :=
  strip (readline (universal_newlines out)).

(** [s] does not start, respectively end, with a white-space character. *)
Definition no_leading_space (s : string) : bool :=
  match first_char s with
  | Some c => negb (isspace c)
  | None => true
  end.

Definition no_trailing_space (s : string) : bool :=
  match last_char s with
  | Some c => negb (isspace c)
  | None => true
  end.

(** [v] is [s] without the white space at its two ends: [s] is [v] between
    two runs of white space, and [v] neither starts nor ends with a
    white-space character. *)
Definition outer_space_removed (s v : string) : Prop :=
  exists l r,
    s = l ++ v ++ r /\
    all_chars isspace l = true /\ all_chars isspace r = true /\
    no_leading_space v = true /\ no_trailing_space v = true.

(** The exceptions the import of the lexer library can raise. *)
Definition import_error (e : exn) : bool :=
  match e with
  | ModuleNotFoundError m => String.eqb m lexer_module
  | ImportError m _ => String.eqb m lexer_module
  | _ => false
  end.

(** The two classes the lexer library of the host exports, when it is
    installed and has both. *)
Definition lexer_exports (h : host) : option (pyval * pyval) :=
  match site_packages h !! lexer_module with
  | None => None
  | Some attrs =>
      match attrs !! "SolidityLexer", attrs !! "YulLexer" with
      | Some sol, Some yul => Some (sol, yul)
      | _, _ => None
      end
  end.

(** The characters [git check-ref-format] lets a reference name hold, as
    far as white space goes: no ASCII control character, no space and no
    DEL.  Code points from 128 on are let through, the no-break space
    (160) and the next-line character (133) among them, which Python takes
    for white space. *)
Definition git_name_char (c : ascii) : bool :=
  let n := N_of_ascii c in ((32 <? n) && negb (n =? 127))%N.

(** A tag name: not empty, made of such characters.  The further rules of
    [git check-ref-format] (on [~ ^ : ? * \], dots and slashes) only take
    names away and are left out, so that a statement about every [refname]
    covers every name [git] accepts. *)
Definition refname (s : string) : bool :=
  negb (String.eqb s "") && all_chars git_name_char s.

(** A state of the repository as [git] can have it: a tag name is a
    [refname], and the distance suffix, empty or of the form
    [-<count>-g<hash>], holds no white space. *)
Definition wf_vcs (s : vcs_state) : bool :=
  match s with
  | Tagged tag suffix => refname tag && all_chars not_space suffix
  | _ => true
  end.

(** The bindings the module makes, in program order, on a host where the
    lexer library exports [sol] and [yul]. *)
Definition module_bindings (h : host) (sol yul : pyval) : list (string * pyval) :=
  [ ("os", PModule "os");
    ("SolidityLexer", sol);
    ("YulLexer", yul);
    ("setup", PFunction "setup");
    ("project", PStr "Solang Solidity Compiler");
    ("copyright", PStr "2019 - 2023 Solang Maintainers");
    ("author", PStr "Sean Young <sean@mess.org>, Cyrill Leutwiler <bigcyrill@hotmail.com>, Lucas Steuernagel <lucas.tnagel@gmail.com>");
    ("version", PStr (first_line_stripped (stdout (shell h describe_nearest))));
    ("release", PStr (first_line_stripped (stdout (shell h describe_full))));
    ("extensions", PList [PStr "sphinx_tabs.tabs"]);
    ("sphinx_tabs_disable_tab_closing", PBool true);
    ("templates_path", PList [PStr "_templates"]);
    ("exclude_patterns", PList []);
    ("html_theme", PStr "sphinx_rtd_theme");
    ("master_doc", PStr "index") ].

Fixpoint bind_all (l : list (string * pyval)) (ns : gmap string pyval) : gmap string pyval :=
  match l with
  | [] => ns
  | (k, v) :: l' => bind_all l' (<[k := v]> ns)
  end.

(** The value a list of bindings leaves under [k], [d] being what was there
    before. *)
Fixpoint assoc_last (k : string) (l : list (string * pyval)) (d : option pyval) : option pyval :=
  match l with
  | [] => d
  | (k', v) :: l' => assoc_last k l' (if String.eqb k' k then Some v else d)
  end.

(** The state in which a run of the module that started in [st] ends. *)
Definition loaded (h : host) (sol yul : pyval) (st : interp) : interp :=
  {| globals := bind_all (module_bindings h sol yul) (globals st);
     spawned := spawned st ++ [describe_nearest; describe_full] |}.

(** Reading a string-valued option of the configuration. *)
Definition config_str (st : interp) (key : string) : option string :=
  match globals st !! key with
  | Some (PStr s) => Some s
  | _ => None
  end.

(** The names the module binds, in program order. *)
Definition module_names : list string :=
  [ "os"; "SolidityLexer"; "YulLexer"; "setup"; "project"; "copyright"; "author";
    "version"; "release"; "extensions"; "sphinx_tabs_disable_tab_closing";
    "templates_path"; "exclude_patterns"; "html_theme"; "master_doc" ].

(** The names whose value depends on the host. *)
Definition host_names : list string :=
  [ "SolidityLexer"; "YulLexer"; "version"; "release" ].

(** ** Sample hosts *)

Definition SolidityLexer : pyval := PClass "pygments_lexer_solidity.SolidityLexer".
Definition YulLexer : pyval := PClass "pygments_lexer_solidity.YulLexer".

(** The lexer library as released: it exports the two classes. *)
Definition with_lexers : gmap string (gmap string pyval) :=
  {[ lexer_module := {[ "SolidityLexer" := SolidityLexer; "YulLexer" := YulLexer ]} ]}.

(** A checkout twelve commits past the tag [v0.3.3]. *)
Definition solang_checkout : vcs_state := Tagged "v0.3.3" "-12-g1a2b3c4".

(** A host whose [git] prints a second line after the tag name. *)
Definition two_line_host : host :=
  {| site_packages := with_lexers;
     shell := fun _ =>
       {| stdout := "v0.3.3" ++ nl ++ "v0.3.2" ++ nl; stderr := ""; returncode := 0 |} |}.

(** A host whose [git] pads the tag name and ends its lines with a carriage
    return and a line feed. *)
Definition padded_host : host :=
  {| site_packages := with_lexers;
     shell := fun _ =>
       {| stdout := "  v0.3.3 " ++ String CR nl ++ "v0.3.2" ++ String CR nl;
          stderr := ""; returncode := 0 |} |}.

(** A host on which the lexer library is not installed. *)
Definition bare_host : host := git_host ∅ solang_checkout.

(** The lexer library in a release that has no [YulLexer] yet. *)
Definition without_yul : gmap string (gmap string pyval) :=
  {[ lexer_module := {[ "SolidityLexer" := SolidityLexer ]} ]}.

(** The namespace in which the generator executes the file: it holds
    [__file__] before the first statement runs. *)
Definition sphinx_namespace : interp :=
  {| globals := {[ "__file__" := PStr "docs/conf.py" ]}; spawned := [] |}.

(** A generator that already has a lexer for Python and an older one under
    the alias [Solidity]. *)
Definition used_app : sphinx_app :=
  {| lexer_classes := {[ "python" := PClass "pygments.lexers.PythonLexer";
                         "Solidity" := PClass "pygments.lexers.TextLexer" ]} |}.

(** The no-break space, U+00A0. *)
Definition NBSP : ascii := "160"%char.

(** A checkout at a tag whose name starts with a no-break space, and one
    two commits past a tag whose name is a no-break space and nothing
    else.  [git tag] creates both. *)
Definition nbsp_v1_checkout : vcs_state := Tagged (String NBSP "v1") "".
Definition nbsp_checkout : vcs_state := Tagged (String NBSP "") "-2-g74469ee".

(** A generator in which no lexer is registered yet. *)
Definition new_app : sphinx_app := {| lexer_classes := ∅ |}.

(** * Properties of the text functions *)

Section text_facts.

Implicit Types (s t : string) (c : ascii) (p : ascii -> bool).

Lemma line_ends_are_spaces c : is_line_end c = true -> isspace c = true.
Proof.
  unfold is_line_end. intros [E | E]%orb_prop; apply Ascii.eqb_eq in E; subst c; reflexivity.
Qed.

Lemma not_space_not_line_end c : not_space c = true -> not_line_end c = true.
Proof.
  unfold not_space, not_line_end. intros H.
  destruct (is_line_end c) eqn:E; [|reflexivity].
  apply line_ends_are_spaces in E. rewrite E in H. discriminate.
Qed.

Lemma not_line_end_split c : not_line_end c = not_LF c && not_CR c.
Proof. unfold not_line_end, is_line_end, not_LF, not_CR. apply negb_orb. Qed.

Lemma all_chars_app p s t :
  all_chars p (s ++ t) = all_chars p s && all_chars p t.
Proof.
  induction s as [|c s IH]; simpl; [reflexivity|].
  rewrite IH. apply andb_assoc.
Qed.

Lemma all_chars_impl p q s :
  (forall c, p c = true -> q c = true) -> all_chars p s = true -> all_chars q s = true.
Proof.
  intros Hpq. induction s as [|c s IH]; simpl; [reflexivity|].
  intros [Hc Hs]%andb_prop. rewrite (Hpq _ Hc), (IH Hs). reflexivity.
Qed.

Lemma all_chars_and p q s :
  all_chars p s = true -> all_chars q s = true ->
  all_chars (fun c => p c && q c) s = true.
Proof.
  induction s as [|c s IH]; simpl; [reflexivity|].
  intros [Hc Hs]%andb_prop [Hc' Hs']%andb_prop.
  rewrite Hc, Hc', (IH Hs Hs'). reflexivity.
Qed.

(** *** [universal_newlines] *)

Lemma universal_newlines_no_CR_bounded n : forall s,
  String.length s <= n -> all_chars not_CR (universal_newlines s) = true.
Proof.
  induction n as [|n IH]; intros [|c s] Hlen; simpl in *; try reflexivity; [lia|].
  destruct (Ascii.eqb c CR) eqn:Ec.
  - change (all_chars not_CR (String LF ?r)) with (all_chars not_CR r).
    destruct s as [|c' s]; [reflexivity|].
    destruct (Ascii.eqb c' LF); apply IH; simpl in *; lia.
  - simpl. unfold not_CR at 1. rewrite Ec. simpl. apply IH. lia.
Qed.

Lemma universal_newlines_no_CR s : all_chars not_CR (universal_newlines s) = true.
Proof. apply (universal_newlines_no_CR_bounded (String.length s)). lia. Qed.

(** A text without carriage returns passes through unchanged. *)
Lemma universal_newlines_id s :
  all_chars not_CR s = true -> universal_newlines s = s.
Proof.
  induction s as [|c s IH]; simpl; [reflexivity|].
  unfold not_CR at 1. intros [Hc Hs]%andb_prop.
  apply negb_true_iff in Hc. rewrite Hc, (IH Hs). reflexivity.
Qed.

(** *** [readline] *)

Lemma first_line_no_LF s : all_chars not_LF (first_line s) = true.
Proof.
  induction s as [|c s IH]; simpl; [reflexivity|].
  destruct (Ascii.eqb c LF) eqn:Ec; simpl; [reflexivity|].
  unfold not_LF at 1. rewrite Ec, IH. reflexivity.
Qed.

Lemma first_line_all_chars p s :
  all_chars p s = true -> all_chars p (first_line s) = true.
Proof.
  induction s as [|c s IH]; simpl; [reflexivity|].
  intros [Hc Hs]%andb_prop.
  destruct (Ascii.eqb c LF); simpl; [reflexivity|].
  rewrite Hc, (IH Hs). reflexivity.
Qed.

(** The line read is the first line, followed by its line feed unless the
    text ended before one. *)
Lemma readline_first_line s :
  readline s = first_line s \/ readline s = first_line s ++ String LF EmptyString.
Proof.
  induction s as [|c s [IH | IH]]; simpl; [left; reflexivity| |];
    destruct (Ascii.eqb c LF); simpl; rewrite ?IH; auto.
Qed.

Lemma readline_one_line s :
  all_chars not_LF s = true ->
  readline (s ++ String LF EmptyString) = s ++ String LF EmptyString.
Proof.
  induction s as [|c s IH]; simpl; [reflexivity|].
  unfold not_LF at 1. intros [Hc Hs]%andb_prop.
  apply negb_true_iff in Hc. rewrite Hc, (IH Hs). reflexivity.
Qed.

(** *** [lstrip], [rstrip], [strip] *)

Lemma rstrip_snoc_space s c :
  isspace c = true -> rstrip (s ++ String c EmptyString) = rstrip s.
Proof.
  intros Hc. induction s as [|a s IH]; simpl; [rewrite Hc; reflexivity|].
  rewrite IH. reflexivity.
Qed.

Lemma strip_snoc_space s c :
  isspace c = true -> strip (s ++ String c EmptyString) = strip s.
Proof.
  intros Hc. unfold strip. induction s as [|a s IH]; simpl.
  - rewrite Hc. reflexivity.
  - destruct (isspace a); [exact IH|].
    apply (rstrip_snoc_space (String a s) c Hc).
Qed.

Lemma strip_readline s : strip (readline s) = strip (first_line s).
Proof.
  destruct (readline_first_line s) as [-> | ->]; [reflexivity|].
  apply strip_snoc_space. reflexivity.
Qed.

Lemma lstrip_all_chars p s : all_chars p s = true -> all_chars p (lstrip s) = true.
Proof.
  induction s as [|c s IH]; simpl; [reflexivity|].
  intros [Hc Hs]%andb_prop.
  destruct (isspace c); [auto|]. simpl. rewrite Hc, Hs. reflexivity.
Qed.

Lemma rstrip_all_chars p s : all_chars p s = true -> all_chars p (rstrip s) = true.
Proof.
  induction s as [|c s IH]; simpl; [reflexivity|].
  intros [Hc Hs]%andb_prop. specialize (IH Hs).
  destruct (rstrip s) as [|a r].
  - destruct (isspace c); simpl; [reflexivity|]. rewrite Hc. reflexivity.
  - simpl in *. rewrite Hc, IH. reflexivity.
Qed.

Lemma strip_all_chars p s : all_chars p s = true -> all_chars p (strip s) = true.
Proof. intros H. apply rstrip_all_chars, lstrip_all_chars, H. Qed.

Lemma lstrip_idem s : lstrip (lstrip s) = lstrip s.
Proof.
  induction s as [|c s IH]; simpl; [reflexivity|].
  destruct (isspace c) eqn:Ec; [exact IH|]. simpl. rewrite Ec. reflexivity.
Qed.

Lemma rstrip_idem s : rstrip (rstrip s) = rstrip s.
Proof.
  induction s as [|c s IH]; simpl; [reflexivity|].
  destruct (rstrip s) as [|a r] eqn:Er.
  - destruct (isspace c) eqn:Ec; simpl; [reflexivity|]. rewrite Ec. reflexivity.
  - change (rstrip (String c (String a r)))
      with (match rstrip (String a r) with
            | EmptyString => if isspace c then EmptyString else String c EmptyString
            | String _ _ as r' => String c r'
            end).
    rewrite IH. reflexivity.
Qed.

Lemma lstrip_rstrip s : lstrip (rstrip s) = rstrip (lstrip s).
Proof.
  induction s as [|c s IH]; simpl; [reflexivity|].
  destruct (isspace c) eqn:Ec.
  - rewrite <- IH. destruct (rstrip s) as [|a r]; simpl; [reflexivity|].
    rewrite Ec. reflexivity.
  - simpl. destruct (rstrip s) as [|a r]; simpl; rewrite Ec; reflexivity.
Qed.

Lemma lstrip_strip s : lstrip (strip s) = strip s.
Proof. unfold strip. rewrite lstrip_rstrip, lstrip_idem. reflexivity. Qed.

Lemma rstrip_strip s : rstrip (strip s) = strip s.
Proof. unfold strip. apply rstrip_idem. Qed.

Lemma strip_idem s : strip (strip s) = strip s.
Proof. unfold strip at 1. rewrite lstrip_strip. apply rstrip_strip. Qed.

(** A text is left alone by [lstrip] exactly when it does not start with
    a space, and by [rstrip] exactly when it does not end with one. *)
Lemma lstrip_fixed_first s c :
  lstrip s = s -> first_char s = Some c -> isspace c = false.
Proof.
  destruct s as [|a s]; simpl; [discriminate|].
  intros H [= <-]. destruct (isspace a) eqn:Ea; [|reflexivity].
  exfalso. clear Ea. revert a H.
  induction s as [|b s IH]; simpl; intros a H; [discriminate|].
  destruct (isspace b).
  - apply (IH b). rewrite H at 1.
    assert (Hlen : String.length (lstrip s) <= String.length s).
    { clear. induction s as [|x s IHs]; simpl; [lia|]. destruct (isspace x); simpl; lia. }
    apply (f_equal String.length) in H. simpl in H. lia.
  - apply (f_equal String.length) in H. simpl in H. lia.
Qed.

Lemma rstrip_fixed_last s c :
  rstrip s = s -> last_char s = Some c -> isspace c = false.
Proof.
  induction s as [|a s IH]; simpl; [discriminate|].
  destruct (rstrip s) as [|b r] eqn:Er.
  - destruct (isspace a) eqn:Ea; [discriminate|].
    intros [= <-]. simpl. intros [= <-]. exact Ea.
  - intros [= <-]. intros H. apply IH; [reflexivity | exact H].
Qed.

Lemma all_not_space_lstrip s : all_chars not_space s = true -> lstrip s = s.
Proof.
  destruct s as [|c s]; simpl; [reflexivity|].
  unfold not_space at 1. intros [Hc _]%andb_prop.
  apply negb_true_iff in Hc. rewrite Hc. reflexivity.
Qed.

Lemma all_not_space_rstrip s : all_chars not_space s = true -> rstrip s = s.
Proof.
  induction s as [|c s IH]; simpl; [reflexivity|].
  unfold not_space at 1. intros [Hc Hs]%andb_prop.
  apply negb_true_iff in Hc. rewrite (IH Hs), Hc.
  destruct s; reflexivity.
Qed.

Lemma strip_no_leading_space s : no_leading_space (strip s) = true.
Proof.
  unfold no_leading_space. destruct (first_char (strip s)) as [c|] eqn:E; [|reflexivity].
  rewrite (lstrip_fixed_first _ c (lstrip_strip s) E). reflexivity.
Qed.

Lemma rstrip_no_trailing_space s : no_trailing_space (rstrip s) = true.
Proof.
  unfold no_trailing_space. destruct (last_char (rstrip s)) as [c|] eqn:E; [|reflexivity].
  rewrite (rstrip_fixed_last _ c (rstrip_idem s) E). reflexivity.
Qed.

Lemma strip_no_trailing_space s : no_trailing_space (strip s) = true.
Proof. apply rstrip_no_trailing_space. Qed.

(** *** The value stored for one [git describe] invocation *)

Lemma first_line_stripped_empty : first_line_stripped "" = "".
Proof. reflexivity. Qed.

Lemma first_line_stripped_no_line_end out :
  all_chars not_line_end (first_line_stripped out) = true.
Proof.
  unfold first_line_stripped. rewrite strip_readline.
  apply strip_all_chars.
  apply all_chars_impl with (p := fun c => not_LF c && not_CR c).
  - intros c Hc. rewrite not_line_end_split. exact Hc.
  - apply all_chars_and; [apply first_line_no_LF|].
    apply first_line_all_chars, universal_newlines_no_CR.
Qed.

(** A child that writes one line [name] and a line feed. *)
Lemma first_line_stripped_one_line name :
  all_chars not_line_end name = true ->
  first_line_stripped (name ++ String LF EmptyString) = strip name.
Proof.
  intros Hname. unfold first_line_stripped.
  assert (HLF : all_chars not_LF name = true).
  { revert Hname. apply all_chars_impl. intros c. rewrite not_line_end_split.
    intros [H _]%andb_prop. exact H. }
  assert (HCR : all_chars not_CR name = true).
  { revert Hname. apply all_chars_impl. intros c. rewrite not_line_end_split.
    intros [_ H]%andb_prop. exact H. }
  rewrite universal_newlines_id.
  - rewrite (readline_one_line _ HLF). apply strip_snoc_space. reflexivity.
  - rewrite all_chars_app, HCR. reflexivity.
Qed.

Lemma first_line_stripped_name name :
  all_chars not_space name = true ->
  first_line_stripped (name ++ String LF EmptyString) = name.
Proof.
  intros Hname. rewrite first_line_stripped_one_line.
  - unfold strip. rewrite (all_not_space_lstrip _ Hname). apply all_not_space_rstrip, Hname.
  - revert Hname. apply all_chars_impl, not_space_not_line_end.
Qed.

End text_facts.

(** *** Splitting a text at its outer white space *)

Section more_text_facts.

Implicit Types (s t l rest : string) (c : ascii).

Lemma universal_newlines_app s t :
  all_chars not_CR s = true -> universal_newlines (s ++ t) = s ++ universal_newlines t.
Proof.
  induction s as [|c s IH]; simpl; [reflexivity|].
  unfold not_CR at 1. intros [Hc Hs]%andb_prop.
  apply negb_true_iff in Hc. rewrite Hc, (IH Hs). reflexivity.
Qed.

Lemma readline_app s t :
  all_chars not_LF s = true -> readline (s ++ String LF t) = s ++ String LF EmptyString.
Proof.
  induction s as [|c s IH]; simpl; [reflexivity|].
  unfold not_LF at 1. intros [Hc Hs]%andb_prop.
  apply negb_true_iff in Hc. rewrite Hc, (IH Hs). reflexivity.
Qed.

Lemma readline_no_LF s : all_chars not_LF s = true -> readline s = s.
Proof.
  induction s as [|c s IH]; simpl; [reflexivity|].
  unfold not_LF at 1. intros [Hc Hs]%andb_prop.
  apply negb_true_iff in Hc. rewrite Hc, (IH Hs). reflexivity.
Qed.

Lemma not_line_end_LF s : all_chars not_line_end s = true -> all_chars not_LF s = true.
Proof.
  apply all_chars_impl. intros c. rewrite not_line_end_split.
  intros [H _]%andb_prop. exact H.
Qed.

Lemma not_line_end_CR s : all_chars not_line_end s = true -> all_chars not_CR s = true.
Proof.
  apply all_chars_impl. intros c. rewrite not_line_end_split.
  intros [_ H]%andb_prop. exact H.
Qed.

Lemma lstrip_split s : exists l, s = l ++ lstrip s /\ all_chars isspace l = true.
Proof.
  induction s as [|c s (l & Hs & Hl)]; simpl.
  - exists "". split; reflexivity.
  - destruct (isspace c) eqn:Ec.
    + exists (String c l).
      split; [change (String c s = String c (l ++ lstrip s)); f_equal; exact Hs|].
      simpl. rewrite Ec, Hl. reflexivity.
    + exists "". split; reflexivity.
Qed.

Lemma rstrip_split s : exists r, s = rstrip s ++ r /\ all_chars isspace r = true.
Proof.
  induction s as [|c s (r & Hs & Hr)]; simpl.
  - exists "". split; reflexivity.
  - destruct (rstrip s) as [|a t] eqn:Et.
    + destruct (isspace c) eqn:Ec.
      * exists (String c r).
        split; [change (String c s = String c ("" ++ r)); f_equal; exact Hs|].
        simpl. rewrite Ec, Hr. reflexivity.
      * exists r.
        split; [change (String c s = String c ("" ++ r)); f_equal; exact Hs | exact Hr].
    + exists r.
      split; [change (String c s = String c (String a t ++ r)); f_equal; exact Hs | exact Hr].
Qed.

Lemma lstrip_spaces s : all_chars isspace s = true -> lstrip s = "".
Proof.
  induction s as [|c s IH]; simpl; [reflexivity|].
  intros [Hc Hs]%andb_prop. rewrite Hc. exact (IH Hs).
Qed.

Lemma rstrip_empty_spaces s : rstrip s = "" -> all_chars isspace s = true.
Proof.
  induction s as [|c s IH]; simpl; [reflexivity|].
  destruct (rstrip s) as [|a t]; [|discriminate].
  destruct (isspace c); [|discriminate]. intros _. apply IH. reflexivity.
Qed.

Lemma strip_empty_iff s : strip s = "" <-> all_chars isspace s = true.
Proof.
  unfold strip. split.
  - intros H. apply rstrip_empty_spaces in H.
    destruct (lstrip_split s) as (l & Hs & Hl).
    rewrite Hs, all_chars_app, Hl, H. reflexivity.
  - intros H. rewrite (lstrip_spaces s H). reflexivity.
Qed.

(** A last line that the child did not terminate. *)
Lemma first_line_stripped_unterminated l :
  all_chars not_line_end l = true -> first_line_stripped l = strip l.
Proof.
  intros Hl. unfold first_line_stripped.
  rewrite (universal_newlines_id l (not_line_end_CR l Hl)).
  rewrite (readline_no_LF l (not_line_end_LF l Hl)). reflexivity.
Qed.

End more_text_facts.

Lemma strip_outer_space_removed (s : string) : outer_space_removed s (strip s).
Proof.
  destruct (lstrip_split s) as (l & Hs & Hl).
  destruct (rstrip_split (lstrip s)) as (r & Ht & Hr).
  exists l, r. unfold strip at 1. rewrite <- Ht, <- Hs.
  repeat split; auto using strip_no_leading_space, strip_no_trailing_space.
Qed.

Lemma no_leading_space_lstrip (s : string) : no_leading_space s = true -> lstrip s = s.
Proof.
  destruct s as [|c s]; [reflexivity|].
  unfold no_leading_space. simpl. intros Hc.
  apply negb_true_iff in Hc. rewrite Hc. reflexivity.
Qed.

Lemma no_trailing_space_rstrip (s : string) : no_trailing_space s = true -> rstrip s = s.
Proof.
  unfold no_trailing_space.
  induction s as [|c s IH]; [reflexivity|].
  destruct s as [|c' s].
  - simpl. intros Hc. apply negb_true_iff in Hc. rewrite Hc. reflexivity.
  - intros Hlast.
    change (rstrip (String c (String c' s)))
      with (match rstrip (String c' s) with
            | EmptyString => if isspace c then EmptyString else String c EmptyString
            | String _ _ as r => String c r
            end).
    rewrite (IH Hlast). reflexivity.
Qed.

Lemma lstrip_app_spaces (a b : string) :
  all_chars isspace a = true -> lstrip (a ++ b) = lstrip b.
Proof.
  induction a as [|c a IH]; [reflexivity|].
  simpl. intros [Hc Ha]%andb_prop. rewrite Hc. exact (IH Ha).
Qed.

Lemma git_name_not_line_end (s : string) :
  all_chars git_name_char s = true -> all_chars not_line_end s = true.
Proof.
  apply all_chars_impl. intros c Hc. unfold not_line_end.
  destruct (is_line_end c) eqn:E; [|reflexivity].
  unfold is_line_end in E. apply orb_prop in E as [E | E];
    apply Ascii.eqb_eq in E; subst c; discriminate Hc.
Qed.

(** What the load stores for a child that wrote the one line [name]. *)
Lemma first_line_stripped_outer_space (name : string) :
  all_chars not_line_end name = true ->
  outer_space_removed name (first_line_stripped (name ++ String LF EmptyString)) /\
  (no_leading_space name = true -> no_trailing_space name = true ->
   first_line_stripped (name ++ String LF EmptyString) = name).
Proof.
  intros Hname. rewrite (first_line_stripped_one_line name Hname). split.
  - apply strip_outer_space_removed.
  - intros Hl Hr. unfold strip.
    rewrite (no_leading_space_lstrip name Hl). apply no_trailing_space_rstrip, Hr.
Qed.

(** * Properties of the module body *)

Section module_facts.

Implicit Types (h : host) (st : interp) (ns : gmap string pyval).

Lemma lookup_bind_all k l : forall ns, bind_all l ns !! k = assoc_last k l (ns !! k).
Proof.
  induction l as [|[k' v] l IH]; intros ns; simpl; [reflexivity|].
  rewrite IH. f_equal.
  destruct (String.eqb_spec k' k) as [-> | Hne].
  - apply lookup_insert_eq.
  - apply lookup_insert_ne, Hne.
Qed.

Lemma assoc_last_default k l : forall d,
  assoc_last k l d = match assoc_last k l None with Some v => Some v | None => d end.
Proof.
  induction l as [|[k' v] l IH]; intros d; simpl; [reflexivity|].
  destruct (String.eqb k' k); [|apply IH].
  rewrite (IH (Some v)). destruct (assoc_last k l None); reflexivity.
Qed.

Lemma bind_all_idem l ns : bind_all l (bind_all l ns) = bind_all l ns.
Proof.
  apply map_eq. intros k. rewrite !lookup_bind_all.
  rewrite (assoc_last_default k l (assoc_last k l _)).
  rewrite (assoc_last_default k l (ns !! k)).
  destruct (assoc_last k l None); reflexivity.
Qed.

(** What a run of the module does, by what the host has installed. *)
Lemma conf_py_outcome h st :
  conf_py h st =
    let os_bound := {| globals := <["os" := PModule "os"]> (globals st); spawned := spawned st |} in
    match site_packages h !! lexer_module with
    | None => Raise (ModuleNotFoundError lexer_module) os_bound
    | Some attrs =>
        match attrs !! "SolidityLexer" with
        | None => Raise (ImportError lexer_module "SolidityLexer") os_bound
        | Some sol =>
            match attrs !! "YulLexer" with
            | None =>
                Raise (ImportError lexer_module "YulLexer")
                      {| globals := <["SolidityLexer" := sol]> (globals os_bound);
                         spawned := spawned st |}
            | Some yul => Return tt (loaded h sol yul st)
            end
        end
    end.
Proof.
  cbv beta iota zeta delta [conf_py bind store import_module import_from popen].
  destruct (site_packages h !! lexer_module) as [attrs|]; [|reflexivity].
  cbv beta iota.
  destruct (attrs !! "SolidityLexer") as [sol|]; [|reflexivity].
  cbv beta iota.
  destruct (attrs !! "YulLexer") as [yul|]; [|reflexivity].
  cbv beta iota delta [globals spawned loaded].
  rewrite <- app_assoc. reflexivity.
Qed.

(** On a host with the lexer library the module runs to its end. *)
Lemma conf_py_returns h st sol yul :
  lexer_exports h = Some (sol, yul) -> conf_py h st = Return tt (loaded h sol yul st).
Proof.
  unfold lexer_exports. rewrite conf_py_outcome. cbv zeta.
  destruct (site_packages h !! lexer_module) as [attrs|]; [|discriminate].
  destruct (attrs !! "SolidityLexer") as [sol'|]; [|discriminate].
  destruct (attrs !! "YulLexer") as [yul'|]; [|discriminate].
  intros [= -> ->]. reflexivity.
Qed.

(** ... and only on such a host. *)
Lemma conf_py_returned h st st' :
  conf_py h st = Return tt st' ->
  exists sol yul, lexer_exports h = Some (sol, yul) /\ st' = loaded h sol yul st.
Proof.
  unfold lexer_exports. rewrite conf_py_outcome. cbv zeta.
  destruct (site_packages h !! lexer_module) as [attrs|]; [|discriminate].
  destruct (attrs !! "SolidityLexer") as [sol|]; [|discriminate].
  destruct (attrs !! "YulLexer") as [yul|]; [|discriminate].
  intros [= <-]. exists sol, yul. split; reflexivity.
Qed.

(** The options a finished run has bound. *)
Lemma loaded_lookup h sol yul st key :
  globals (loaded h sol yul st) !! key
  = assoc_last key (module_bindings h sol yul) (globals st !! key).
Proof. apply lookup_bind_all. Qed.

Lemma loaded_version h sol yul st :
  config_str (loaded h sol yul st) "version"
  = Some (first_line_stripped (stdout (shell h describe_nearest))).
Proof. unfold config_str. rewrite loaded_lookup. reflexivity. Qed.

Lemma loaded_release h sol yul st :
  config_str (loaded h sol yul st) "release"
  = Some (first_line_stripped (stdout (shell h describe_full))).
Proof. unfold config_str. rewrite loaded_lookup. reflexivity. Qed.

Lemma loaded_spawned h sol yul st :
  spawned (loaded h sol yul st) = (spawned st ++ [describe_nearest; describe_full])%list.
Proof. reflexivity. Qed.

(** [setup], statement by statement. *)
Lemma setup_outcome {G} `{Generator G} ns (g : G) :
  setup ns g =
    match ns !! "SolidityLexer" with
    | None => Raise (NameError "SolidityLexer") g
    | Some sol =>
        match add_lexer "Solidity" sol g with
        | Raise e g1 => Raise e g1
        | Return _ g1 =>
            match ns !! "YulLexer" with
            | None => Raise (NameError "YulLexer") g1
            | Some yul => add_lexer "Yul" yul g1
            end
        end
    end.
Proof.
  unfold setup, bind, load_global.
  destruct (ns !! "SolidityLexer") as [sol|]; [|reflexivity].
  unfold ret. destruct (add_lexer "Solidity" sol g) as [[] g1|e g1]; [|reflexivity].
  destruct (ns !! "YulLexer") as [yul|]; [|reflexivity].
  destruct (add_lexer "Yul" yul g1); reflexivity.
Qed.

End module_facts.

(** * Sample runs *)

Example solang_checkout_run :
  let st := loaded (git_host with_lexers solang_checkout) SolidityLexer YulLexer fresh in
  conf_py (git_host with_lexers solang_checkout) fresh = Return tt st /\
  config_str st "version" = Some "v0.3.3" /\
  config_str st "release" = Some "v0.3.3-12-g1a2b3c4" /\
  spawned st = ["git describe --tags --abbrev=0"; "git describe --tags"].
Proof. cbv zeta. repeat split; vm_compute; reflexivity. Qed.

Example padded_host_run :
  let st := loaded padded_host SolidityLexer YulLexer fresh in
  conf_py padded_host fresh = Return tt st /\
  config_str st "version" = Some "v0.3.3" /\
  config_str st "release" = Some "v0.3.3".
Proof. cbv zeta. repeat split; vm_compute; reflexivity. Qed.

(** * The claims *)

(** ** The version resolver *)

(** C1 as it is stated, on the model of [git]: after a load at a tagged
    checkout, [version] is the tag name without its trailing white space,
    that is, the tag name is [version] followed by white space only. *)
Definition version_is_tag_name : Prop :=
  forall (pkgs : gmap string (gmap string pyval)) (tag suffix : string) (st st' : interp),
    wf_vcs (Tagged tag suffix) = true ->
    conf_py (git_host pkgs (Tagged tag suffix)) st = Return tt st' ->
    exists v t,
      config_str st' "version" = Some v /\
      tag = v ++ t /\ all_chars isspace t = true.

(** At the tag whose name is a no-break space followed by [v1], [version]
    is [v1]: [strip] has removed the leading character of the name. *)
Lemma version_is_tag_name_fails : ~ version_is_tag_name.
Proof.
  intros H.
  destruct (H with_lexers (String NBSP "v1") "" fresh
              (loaded (git_host with_lexers nbsp_v1_checkout) SolidityLexer YulLexer fresh))
    as (v & t & Hv & Htag & _).
  - reflexivity.
  - apply conf_py_returns. reflexivity.
  - rewrite loaded_version in Hv. vm_compute in Hv.
    injection Hv as <-. discriminate Htag.
Qed.

Example nbsp_v1_checkout_version :
  wf_vcs nbsp_v1_checkout = true /\
  config_str (loaded (git_host with_lexers nbsp_v1_checkout) SolidityLexer YulLexer fresh)
             "version" = Some "v1".
Proof. split; reflexivity. Qed.

(** C1, amended.  On a host whose [git describe] prints the nearest tag name
    [tag] and the description [desc], each on a line of its own, the module
    runs to its end; [version] is [tag] and [release] is [desc], each
    without the white space at its two ends.  So neither value ends (or
    starts) with a white-space character, and each is the name itself when
    the name neither starts nor ends with one. *)
Theorem version_release_are_stripped_names
  (h : host) (st : interp) (sol yul : pyval) (tag desc : string) :
  lexer_exports h = Some (sol, yul) ->
  all_chars not_line_end tag = true ->
  all_chars not_line_end desc = true ->
  stdout (shell h describe_nearest) = tag ++ nl ->
  stdout (shell h describe_full) = desc ++ nl ->
  exists st' v r,
    conf_py h st = Return tt st' /\
    config_str st' "version" = Some v /\
    config_str st' "release" = Some r /\
    outer_space_removed tag v /\
    outer_space_removed desc r /\
    (no_leading_space tag = true -> no_trailing_space tag = true -> v = tag) /\
    (no_leading_space desc = true -> no_trailing_space desc = true -> r = desc).
Proof.
  intros Hlex Htag Hdesc Hout1 Hout2.
  exists (loaded h sol yul st),
    (first_line_stripped (stdout (shell h describe_nearest))),
    (first_line_stripped (stdout (shell h describe_full))).
  split; [apply conf_py_returns, Hlex|].
  rewrite loaded_version, loaded_release, Hout1, Hout2. unfold nl.
  destruct (first_line_stripped_outer_space tag Htag) as [Hv Hv'].
  destruct (first_line_stripped_outer_space desc Hdesc) as [Hr Hr'].
  repeat split; assumption.
Qed.

Lemma version_release_are_stripped_names_witness :
  exists st' v r,
    conf_py (git_host with_lexers solang_checkout) fresh = Return tt st' /\
    config_str st' "version" = Some v /\
    config_str st' "release" = Some r /\
    outer_space_removed "v0.3.3" v /\
    outer_space_removed "v0.3.3-12-g1a2b3c4" r /\
    (no_leading_space "v0.3.3" = true -> no_trailing_space "v0.3.3" = true -> v = "v0.3.3") /\
    (no_leading_space "v0.3.3-12-g1a2b3c4" = true ->
     no_trailing_space "v0.3.3-12-g1a2b3c4" = true -> r = "v0.3.3-12-g1a2b3c4").
Proof.
  apply (version_release_are_stripped_names
           (git_host with_lexers solang_checkout) fresh SolidityLexer YulLexer
           "v0.3.3" "v0.3.3-12-g1a2b3c4"); reflexivity.
Defined.

Lemma git_describe_silent (pkgs : gmap string (gmap string pyval)) (s : vcs_state) :
  (forall tag suffix, s <> Tagged tag suffix) ->
  stdout (shell (git_host pkgs s) describe_nearest) = "" /\
  stdout (shell (git_host pkgs s) describe_full) = "".
Proof.
  intros Hs. destruct s as [| | |tag suffix]; try (split; reflexivity).
  destruct (Hs tag suffix eq_refl).
Qed.

(** C2.  When neither invocation writes anything to its standard output, as
    is the case when [git] is absent, when the directory is no repository
    and when the repository has no tag, the module still runs to its end,
    whatever the children's exit status and diagnostics, and binds both
    [version] and [release] to the empty string. *)
Theorem version_release_empty_without_output
  (h : host) (st : interp) (sol yul : pyval) :
  lexer_exports h = Some (sol, yul) ->
  stdout (shell h describe_nearest) = "" ->
  stdout (shell h describe_full) = "" ->
  exists st',
    conf_py h st = Return tt st' /\
    config_str st' "version" = Some "" /\
    config_str st' "release" = Some "".
Proof.
  intros Hlex Hout1 Hout2.
  exists (loaded h sol yul st). split; [apply conf_py_returns, Hlex|].
  rewrite loaded_version, loaded_release, Hout1, Hout2.
  split; reflexivity.
Qed.

Lemma version_release_empty_without_output_witness :
  exists st',
    conf_py (git_host with_lexers ToolAbsent) fresh = Return tt st' /\
    config_str st' "version" = Some "" /\
    config_str st' "release" = Some "".
Proof.
  apply (version_release_empty_without_output
           (git_host with_lexers ToolAbsent) fresh SolidityLexer YulLexer);
    reflexivity.
Defined.

(** The three situations named in C2, on the model of [git]. *)
Corollary version_release_empty_when_undescribable
  (pkgs : gmap string (gmap string pyval)) (s : vcs_state) (st : interp) (sol yul : pyval) :
  s = ToolAbsent \/ s = NotARepository \/ s = NoTags ->
  lexer_exports (git_host pkgs s) = Some (sol, yul) ->
  exists st',
    conf_py (git_host pkgs s) st = Return tt st' /\
    config_str st' "version" = Some "" /\
    config_str st' "release" = Some "".
Proof.
  intros Hs Hlex.
  destruct (git_describe_silent pkgs s) as [H1 H2].
  { intros tag suffix ->. destruct Hs as [Hs | [Hs | Hs]]; discriminate Hs. }
  exists (loaded (git_host pkgs s) sol yul st). split; [apply conf_py_returns, Hlex|].
  rewrite loaded_version, loaded_release, H1, H2. split; reflexivity.
Qed.

(** C5 as it is stated: each value is the whole captured output without its
    trailing white space. *)
Definition stores_whole_output : Prop :=
  forall (h : host) (st st' : interp),
    conf_py h st = Return tt st' ->
    config_str st' "version" = Some (rstrip (stdout (shell h describe_nearest))) /\
    config_str st' "release" = Some (rstrip (stdout (shell h describe_full))).

(** On a host whose [git] prints two lines, the whole output without its
    trailing white space still has both lines, and [version] has one. *)
Lemma stores_whole_output_fails : ~ stores_whole_output.
Proof.
  intros H.
  destruct (H two_line_host fresh (loaded two_line_host SolidityLexer YulLexer fresh))
    as [Hv _].
  - apply conf_py_returns. reflexivity.
  - rewrite loaded_version in Hv. vm_compute in Hv. discriminate Hv.
Qed.

Example two_line_host_version :
  config_str (loaded two_line_host SolidityLexer YulLexer fresh) "version" = Some "v0.3.3" /\
  rstrip (stdout (shell two_line_host describe_nearest)) = "v0.3.3" ++ nl ++ "v0.3.2".
Proof. split; reflexivity. Qed.

(** C5, amended.  A run of the module spawns exactly two commands, the
    nearest-tag query and then the verbose description, and stores for each
    the first line of the captured standard output without its leading and
    trailing white space. *)
Theorem popen_twice_first_line_stripped
  (h : host) (st : interp) (sol yul : pyval) :
  lexer_exports h = Some (sol, yul) ->
  exists st',
    conf_py h st = Return tt st' /\
    spawned st' = (spawned st ++ [describe_nearest; describe_full])%list /\
    config_str st' "version"
      = Some (strip (first_line (universal_newlines (stdout (shell h describe_nearest))))) /\
    config_str st' "release"
      = Some (strip (first_line (universal_newlines (stdout (shell h describe_full))))).
Proof.
  intros Hlex.
  exists (loaded h sol yul st). split; [apply conf_py_returns, Hlex|].
  rewrite loaded_version, loaded_release, loaded_spawned.
  unfold first_line_stripped. rewrite !strip_readline.
  repeat split; reflexivity.
Qed.

Lemma popen_twice_first_line_stripped_witness :
  exists st',
    conf_py two_line_host fresh = Return tt st' /\
    spawned st' = (spawned fresh ++ [describe_nearest; describe_full])%list /\
    config_str st' "version"
      = Some (strip (first_line (universal_newlines (stdout (shell two_line_host describe_nearest))))) /\
    config_str st' "release"
      = Some (strip (first_line (universal_newlines (stdout (shell two_line_host describe_full))))).
Proof.
  apply (popen_twice_first_line_stripped two_line_host fresh SolidityLexer YulLexer).
  reflexivity.
Defined.

(** C9.  Whatever the two children write, [version] and [release] are bound
    to strings that hold no line feed and no carriage return and that
    neither start nor end with a white-space character; each is the first
    line of the child's output, stripped. *)
Theorem version_release_single_stripped_line
  (h : host) (st : interp) (sol yul : pyval) :
  lexer_exports h = Some (sol, yul) ->
  exists st' v r,
    conf_py h st = Return tt st' /\
    config_str st' "version" = Some v /\
    config_str st' "release" = Some r /\
    v = strip (first_line (universal_newlines (stdout (shell h describe_nearest)))) /\
    r = strip (first_line (universal_newlines (stdout (shell h describe_full)))) /\
    all_chars not_line_end v = true /\ all_chars not_line_end r = true /\
    no_leading_space v = true /\ no_leading_space r = true /\
    no_trailing_space v = true /\ no_trailing_space r = true.
Proof.
  intros Hlex.
  exists (loaded h sol yul st),
    (first_line_stripped (stdout (shell h describe_nearest))),
    (first_line_stripped (stdout (shell h describe_full))).
  split; [apply conf_py_returns, Hlex|].
  rewrite loaded_version, loaded_release.
  repeat split;
    first [ apply strip_readline
          | apply first_line_stripped_no_line_end
          | apply strip_no_leading_space
          | apply strip_no_trailing_space ].
Qed.

Lemma version_release_single_stripped_line_witness :
  exists st' v r,
    conf_py padded_host fresh = Return tt st' /\
    config_str st' "version" = Some v /\
    config_str st' "release" = Some r /\
    v = strip (first_line (universal_newlines (stdout (shell padded_host describe_nearest)))) /\
    r = strip (first_line (universal_newlines (stdout (shell padded_host describe_full)))) /\
    all_chars not_line_end v = true /\ all_chars not_line_end r = true /\
    no_leading_space v = true /\ no_leading_space r = true /\
    no_trailing_space v = true /\ no_trailing_space r = true.
Proof.
  apply (version_release_single_stripped_line padded_host fresh SolidityLexer YulLexer).
  reflexivity.
Defined.

(** ** The lexer registrar *)

(** C3.  After a run of the module, whatever generator the hook is called
    with, a call of [setup] that returns leaves the generator's lexer table
    with the library's [SolidityLexer] under ["Solidity"] and its [YulLexer]
    under ["Yul"]. *)
Theorem setup_registers_both_lexers {G} `{Generator G}
  (h : host) (st st' : interp) (sol yul : pyval) (g g' : G) :
  lexer_exports h = Some (sol, yul) ->
  conf_py h st = Return tt st' ->
  setup (globals st') g = Return tt g' ->
  lexer_table g' !! "Solidity" = Some sol /\ lexer_table g' !! "Yul" = Some yul.
Proof.
  intros Hlex Hload Hsetup.
  rewrite (conf_py_returns h st sol yul Hlex) in Hload.
  assert (Hst : st' = loaded h sol yul st) by congruence. subst st'. clear Hload.
  rewrite setup_outcome, !loaded_lookup in Hsetup.
  change (assoc_last "SolidityLexer" _ _) with (Some sol) in Hsetup.
  change (assoc_last "YulLexer" _ _) with (Some yul) in Hsetup.
  cbv beta iota in Hsetup.
  destruct (add_lexer "Solidity" sol g) as [[] g1|e g1] eqn:Hsol;
    cbv beta iota in Hsetup; [|discriminate].
  apply add_lexer_returns in Hsol, Hsetup.
  rewrite Hsetup, Hsol. split.
  - rewrite lookup_insert_ne by discriminate. apply lookup_insert_eq.
  - apply lookup_insert_eq.
Qed.

Lemma setup_registers_both_lexers_witness :
  lexer_table
    {| lexer_classes := <["Yul" := YulLexer]> (<["Solidity" := SolidityLexer]> ∅) |}
    !! "Solidity" = Some SolidityLexer /\
  lexer_table
    {| lexer_classes := <["Yul" := YulLexer]> (<["Solidity" := SolidityLexer]> ∅) |}
    !! "Yul" = Some YulLexer.
Proof.
  apply (setup_registers_both_lexers
           (git_host with_lexers solang_checkout) fresh
           (loaded (git_host with_lexers solang_checkout) SolidityLexer YulLexer fresh)
           SolidityLexer YulLexer new_app);
    vm_compute; reflexivity.
Defined.

(** With Sphinx the hook does return. *)
Lemma setup_returns_with_sphinx (h : host) (st : interp) (sol yul : pyval) (app : sphinx_app) :
  lexer_exports h = Some (sol, yul) ->
  setup (globals (loaded h sol yul st)) app
  = Return tt {| lexer_classes := <["Yul" := yul]> (<["Solidity" := sol]> (lexer_classes app)) |}.
Proof.
  intros _. rewrite setup_outcome, !loaded_lookup. reflexivity.
Qed.

(** C7.  On a host without the lexer library a run of the module raises
    [ModuleNotFoundError] at the import: no command has been spawned, and
    nothing but [os] has been bound, so neither [setup] nor [version] nor
    [release] is.  The hook has no handler of its own: an exception raised
    by [add_lexer] leaves [setup] as it is. *)
Theorem missing_lexer_library_aborts_load (h : host) (st : interp) :
  site_packages h !! lexer_module = None ->
  (exists st',
     conf_py h st = Raise (ModuleNotFoundError lexer_module) st' /\
     spawned st' = spawned st /\
     forall key, key <> "os" -> globals st' !! key = globals st !! key) /\
  (forall G (HG : Generator G) (ns : gmap string pyval) (c : pyval) (g g1 : G) (e : exn),
     ns !! "SolidityLexer" = Some c ->
     add_lexer "Solidity" c g = Raise e g1 ->
     setup ns g = Raise e g1) /\
  (forall G (HG : Generator G) (ns : gmap string pyval) (c c' : pyval) (g g1 g2 : G) (e : exn),
     ns !! "SolidityLexer" = Some c ->
     ns !! "YulLexer" = Some c' ->
     add_lexer "Solidity" c g = Return tt g1 ->
     add_lexer "Yul" c' g1 = Raise e g2 ->
     setup ns g = Raise e g2).
Proof.
  intros Hmissing. split; [|split].
  - rewrite conf_py_outcome, Hmissing. cbv zeta.
    eexists. split; [reflexivity|]. split; [reflexivity|].
    intros key Hkey. cbn [globals]. apply lookup_insert_ne. congruence.
  - intros G HG ns c g g1 e Hc Hraise. rewrite setup_outcome, Hc, Hraise. reflexivity.
  - intros G HG ns c c' g g1 g2 e Hc Hc' Hret Hraise.
    rewrite setup_outcome, Hc, Hret, Hc', Hraise. reflexivity.
Qed.

Lemma missing_lexer_library_aborts_load_witness :
  (exists st',
     conf_py bare_host fresh = Raise (ModuleNotFoundError lexer_module) st' /\
     spawned st' = spawned fresh /\
     forall key, key <> "os" -> globals st' !! key = globals fresh !! key) /\
  (forall G (HG : Generator G) (ns : gmap string pyval) (c : pyval) (g g1 : G) (e : exn),
     ns !! "SolidityLexer" = Some c ->
     add_lexer "Solidity" c g = Raise e g1 ->
     setup ns g = Raise e g1) /\
  (forall G (HG : Generator G) (ns : gmap string pyval) (c c' : pyval) (g g1 g2 : G) (e : exn),
     ns !! "SolidityLexer" = Some c ->
     ns !! "YulLexer" = Some c' ->
     add_lexer "Solidity" c g = Return tt g1 ->
     add_lexer "Yul" c' g1 = Raise e g2 ->
     setup ns g = Raise e g2).
Proof.
  apply (missing_lexer_library_aborts_load bare_host fresh). reflexivity.
Defined.

(** The run on the sample host without the library, and the hook on a
    generator that refuses the first lexer. *)
Example bare_host_run :
  conf_py bare_host fresh
  = Raise (ModuleNotFoundError "pygments_lexer_solidity")
          {| globals := {[ "os" := PModule "os" ]}; spawned := [] |}.
Proof. reflexivity. Qed.

Example sealed_app_setup :
  setup (globals (loaded (git_host with_lexers solang_checkout) SolidityLexer YulLexer fresh))
        {| sealed_lexers := ∅ |}
  = Raise (RuntimeError "registry is sealed") {| sealed_lexers := ∅ |}.
Proof. vm_compute. reflexivity. Qed.

(** ** The configuration as a whole *)

(** C4 as it is stated, on the model of [git]: after a load, [version] and
    [release] are both non-empty or both empty. *)
Definition both_or_neither : Prop :=
  forall (pkgs : gmap string (gmap string pyval)) (s : vcs_state) (st st' : interp),
    wf_vcs s = true ->
    conf_py (git_host pkgs s) st = Return tt st' ->
    exists v r,
      config_str st' "version" = Some v /\
      config_str st' "release" = Some r /\
      ((v <> "" /\ r <> "") \/ (v = "" /\ r = "")).

(** Two commits past a tag whose name is a no-break space, [version] is
    empty and [release] is the distance suffix. *)
Lemma both_or_neither_fails : ~ both_or_neither.
Proof.
  intros H.
  destruct (H with_lexers nbsp_checkout fresh
              (loaded (git_host with_lexers nbsp_checkout) SolidityLexer YulLexer fresh))
    as (v & r & Hv & Hr & Hpair).
  - reflexivity.
  - apply conf_py_returns. reflexivity.
  - rewrite loaded_version in Hv. rewrite loaded_release in Hr.
    vm_compute in Hv, Hr. injection Hv as <-. injection Hr as <-.
    destruct Hpair as [[Hne _] | [_ He]]; [apply Hne; reflexivity | discriminate He].
Qed.

Example nbsp_checkout_run :
  let st := loaded (git_host with_lexers nbsp_checkout) SolidityLexer YulLexer fresh in
  wf_vcs nbsp_checkout = true /\
  conf_py (git_host with_lexers nbsp_checkout) fresh = Return tt st /\
  config_str st "version" = Some "" /\
  config_str st "release" = Some "-2-g74469ee".
Proof. cbv zeta. repeat split; vm_compute; reflexivity. Qed.

(** C4, amended.  On a host whose [git] finds the repository in any state,
    one of three things holds after the load.  The nearest tag has a name
    with a character that is not white space: [version] and [release] are
    both non-empty and come from that tag, the one being its name and the
    other its name followed by the distance suffix, each without the white
    space at its ends.  Or [git] could describe nothing: both are empty.
    Or the name of the nearest tag is white space throughout: [version] is
    empty and [release] is the distance suffix.  The module itself does not
    compare the two values. *)
Theorem version_release_by_tag_state
  (pkgs : gmap string (gmap string pyval)) (s : vcs_state) (st : interp) (sol yul : pyval) :
  wf_vcs s = true ->
  lexer_exports (git_host pkgs s) = Some (sol, yul) ->
  exists st' v r,
    conf_py (git_host pkgs s) st = Return tt st' /\
    config_str st' "version" = Some v /\
    config_str st' "release" = Some r /\
    ((v <> "" /\ r <> "" /\
      exists tag suffix,
        s = Tagged tag suffix /\ all_chars isspace tag = false /\
        outer_space_removed tag v /\ outer_space_removed (tag ++ suffix) r) \/
     (v = "" /\ r = "" /\ forall tag suffix, s <> Tagged tag suffix) \/
     (exists tag suffix,
        s = Tagged tag suffix /\ all_chars isspace tag = true /\ v = "" /\ r = suffix)).
Proof.
  intros Hwf Hlex.
  eexists (loaded (git_host pkgs s) sol yul st), _, _.
  split; [apply conf_py_returns, Hlex|].
  rewrite loaded_version, loaded_release.
  split; [reflexivity|]. split; [reflexivity|].
  destruct s as [| | |tag suffix];
    try (right; left; repeat split; discriminate).
  cbn [wf_vcs] in Hwf. apply andb_prop in Hwf as [Href Hsuffix].
  apply andb_prop in Href as [_ Htag].
  apply git_name_not_line_end in Htag.
  assert (Hdesc : all_chars not_line_end (tag ++ suffix) = true).
  { rewrite all_chars_app, Htag. simpl.
    revert Hsuffix. apply all_chars_impl, not_space_not_line_end. }
  change (stdout (shell (git_host pkgs (Tagged tag suffix)) describe_nearest))
    with (tag ++ nl).
  change (stdout (shell (git_host pkgs (Tagged tag suffix)) describe_full))
    with ((tag ++ suffix) ++ nl).
  unfold nl. rewrite !first_line_stripped_one_line by assumption.
  destruct (all_chars isspace tag) eqn:Hspace.
  - right; right. exists tag, suffix.
    split; [reflexivity|]. split; [exact Hspace|]. split.
    + apply strip_empty_iff, Hspace.
    + unfold strip. rewrite (lstrip_app_spaces tag suffix Hspace).
      rewrite (all_not_space_lstrip suffix Hsuffix).
      apply all_not_space_rstrip, Hsuffix.
  - left. split; [|split].
    + intros Hv. apply strip_empty_iff in Hv. congruence.
    + intros Hr. apply strip_empty_iff in Hr.
      rewrite all_chars_app, Hspace in Hr. discriminate Hr.
    + exists tag, suffix.
      split; [reflexivity|]. split; [exact Hspace|].
      split; apply strip_outer_space_removed.
Qed.

Lemma version_release_by_tag_state_witness :
  exists st' v r,
    conf_py (git_host with_lexers solang_checkout) fresh = Return tt st' /\
    config_str st' "version" = Some v /\
    config_str st' "release" = Some r /\
    ((v <> "" /\ r <> "" /\
      exists tag suffix,
        solang_checkout = Tagged tag suffix /\ all_chars isspace tag = false /\
        outer_space_removed tag v /\ outer_space_removed (tag ++ suffix) r) \/
     (v = "" /\ r = "" /\ forall tag suffix, solang_checkout <> Tagged tag suffix) \/
     (exists tag suffix,
        solang_checkout = Tagged tag suffix /\ all_chars isspace tag = true /\
        v = "" /\ r = suffix)).
Proof.
  apply (version_release_by_tag_state
           with_lexers solang_checkout fresh SolidityLexer YulLexer);
    reflexivity.
Defined.

(** C6.  Loading is idempotent on a fixed host.  After a run that returned,
    a second run from any state with the same initial namespace returns
    with the same value under every key, whatever was spawned before; and
    so does a run that starts over the namespace the first one left. *)
Theorem conf_py_idempotent (h : host) (st st1 : interp) :
  conf_py h st = Return tt st1 ->
  (forall st', globals st' = globals st ->
     exists st1', conf_py h st' = Return tt st1' /\
                  forall key, globals st1' !! key = globals st1 !! key) /\
  (exists st2, conf_py h st1 = Return tt st2 /\
               forall key, globals st2 !! key = globals st1 !! key).
Proof.
  intros Hload.
  destruct (conf_py_returned h st st1 Hload) as (sol & yul & Hlex & ->).
  split.
  - intros st' Hst'. exists (loaded h sol yul st').
    split; [apply conf_py_returns, Hlex|].
    intros key. unfold loaded. cbn [globals]. rewrite Hst'. reflexivity.
  - exists (loaded h sol yul (loaded h sol yul st)).
    split; [apply conf_py_returns, Hlex|].
    intros key. unfold loaded. cbn [globals]. rewrite bind_all_idem. reflexivity.
Qed.

Lemma conf_py_idempotent_witness :
  (forall st', globals st' = globals fresh ->
     exists st1', conf_py padded_host st' = Return tt st1' /\
                  forall key, globals st1' !! key
                              = globals (loaded padded_host SolidityLexer YulLexer fresh) !! key) /\
  (exists st2, conf_py padded_host (loaded padded_host SolidityLexer YulLexer fresh)
               = Return tt st2 /\
               forall key, globals st2 !! key
                           = globals (loaded padded_host SolidityLexer YulLexer fresh) !! key).
Proof.
  apply (conf_py_idempotent padded_host fresh
           (loaded padded_host SolidityLexer YulLexer fresh)).
  vm_compute. reflexivity.
Defined.

(** C8.  After a run of the module, [extensions] is a list of exactly one
    element, the identifier of the tabs extension, [sphinx_tabs.tabs]. *)
Theorem extensions_is_sphinx_tabs (h : host) (st : interp) (sol yul : pyval) :
  lexer_exports h = Some (sol, yul) ->
  exists st' items,
    conf_py h st = Return tt st' /\
    globals st' !! "extensions" = Some (PList items) /\
    length items = 1 /\
    items = [PStr "sphinx_tabs.tabs"].
Proof.
  intros Hlex. exists (loaded h sol yul st), [PStr "sphinx_tabs.tabs"].
  split; [apply conf_py_returns, Hlex|].
  rewrite loaded_lookup. repeat split.
Qed.

Lemma extensions_is_sphinx_tabs_witness :
  exists st' items,
    conf_py (git_host with_lexers NoTags) fresh = Return tt st' /\
    globals st' !! "extensions" = Some (PList items) /\
    length items = 1 /\
    items = [PStr "sphinx_tabs.tabs"].
Proof.
  apply (extensions_is_sphinx_tabs (git_host with_lexers NoTags) fresh SolidityLexer YulLexer).
  reflexivity.
Defined.

(** C10.  After a run of the module, on any host and whatever [git] printed,
    [sphinx_tabs_disable_tab_closing] is [True]. *)
Theorem tab_closing_disabled (h : host) (st : interp) (sol yul : pyval) :
  lexer_exports h = Some (sol, yul) ->
  exists st',
    conf_py h st = Return tt st' /\
    globals st' !! "sphinx_tabs_disable_tab_closing" = Some (PBool true).
Proof.
  intros Hlex. exists (loaded h sol yul st).
  split; [apply conf_py_returns, Hlex|].
  rewrite loaded_lookup. reflexivity.
Qed.

Lemma tab_closing_disabled_witness :
  exists st',
    conf_py (git_host with_lexers NotARepository) fresh = Return tt st' /\
    globals st' !! "sphinx_tabs_disable_tab_closing" = Some (PBool true).
Proof.
  apply (tab_closing_disabled (git_host with_lexers NotARepository) fresh
           SolidityLexer YulLexer).
  reflexivity.
Defined.

(** * Further properties *)

(** ** The text read from the pipe *)

(** X1.  Whatever follows the first line terminator of the child's output
    is ignored, be the terminator a line feed, a carriage return or both,
    and a last line without terminator is read as well: the value stored is
    the first line, stripped. *)
Theorem only_first_line_is_read (l : string) :
  all_chars not_line_end l = true ->
  first_line_stripped l = strip l /\
  forall rest,
    first_line_stripped (l ++ String LF rest) = strip l /\
    first_line_stripped (l ++ String CR rest) = strip l /\
    first_line_stripped (l ++ String CR (String LF rest)) = strip l.
Proof.
  intros Hl.
  pose proof (not_line_end_LF l Hl) as HLF. pose proof (not_line_end_CR l Hl) as HCR.
  assert (Hcut : forall t, strip (readline (l ++ String LF t)) = strip l).
  { intros t. rewrite (readline_app l t HLF). apply strip_snoc_space. reflexivity. }
  split; [apply first_line_stripped_unterminated, Hl|].
  unfold first_line_stripped.
  intros rest. rewrite !(universal_newlines_app l _ HCR). repeat split.
  + destruct (Ascii.eqb LF CR) eqn:E; [discriminate E|].
    change (universal_newlines (String LF rest)) with (String LF (universal_newlines rest)).
    apply Hcut.
  + change (universal_newlines (String CR rest))
      with (String LF match rest with
                      | EmptyString => EmptyString
                      | String c' s'' =>
                          if Ascii.eqb c' LF then universal_newlines s''
                          else universal_newlines rest
                      end).
    apply Hcut.
  + change (universal_newlines (String CR (String LF rest)))
      with (String LF (universal_newlines rest)).
    apply Hcut.
Qed.

Lemma only_first_line_is_read_witness :
  first_line_stripped " v0.3.3 " = strip " v0.3.3 " /\
  forall rest,
    first_line_stripped (" v0.3.3 " ++ String LF rest) = strip " v0.3.3 " /\
    first_line_stripped (" v0.3.3 " ++ String CR rest) = strip " v0.3.3 " /\
    first_line_stripped (" v0.3.3 " ++ String CR (String LF rest)) = strip " v0.3.3 ".
Proof. apply (only_first_line_is_read " v0.3.3 "). reflexivity. Defined.

(** X2.  The value stored is empty exactly when the first line of the
    child's output holds nothing but white space, whatever follows it. *)
Theorem stored_empty_iff_first_line_blank (out : string) :
  first_line_stripped out = ""
  <-> all_chars isspace (first_line (universal_newlines out)) = true.
Proof.
  unfold first_line_stripped. rewrite strip_readline. apply strip_empty_iff.
Qed.

(** X3.  [strip] removes white space at the two ends and nothing else: the
    text is the stripped text between two runs of white space, and the
    stripped text neither starts nor ends with a white-space character. *)
Theorem strip_removes_only_outer_space (s : string) :
  exists l r,
    s = l ++ strip s ++ r /\
    all_chars isspace l = true /\ all_chars isspace r = true /\
    no_leading_space (strip s) = true /\ no_trailing_space (strip s) = true.
Proof.
  destruct (lstrip_split s) as (l & Hs & Hl).
  destruct (rstrip_split (lstrip s)) as (r & Ht & Hr).
  exists l, r. unfold strip at 1. rewrite <- Ht, <- Hs.
  repeat split; auto using strip_no_leading_space, strip_no_trailing_space.
Qed.

(** X4.  A stored value is stable: written out by a child and read back by
    the same statement, it comes back unchanged. *)
Theorem stored_value_is_stable (out : string) :
  first_line_stripped (first_line_stripped out) = first_line_stripped out /\
  first_line_stripped (first_line_stripped out ++ nl) = first_line_stripped out.
Proof.
  pose proof (first_line_stripped_no_line_end out) as Hv.
  split.
  - rewrite (first_line_stripped_unterminated _ Hv). apply strip_idem.
  - unfold nl. rewrite (first_line_stripped_one_line _ Hv). apply strip_idem.
Qed.

(** ** The module body *)

Section more_module_facts.

Implicit Types (h : host) (st : interp) (ns : gmap string pyval).

Lemma assoc_last_other k l : forall d,
  ~ In k (map fst l) -> assoc_last k l d = d.
Proof.
  induction l as [|[k' v] l IH]; intros d Hk; simpl in *; [reflexivity|].
  destruct (String.eqb_spec k' k) as [-> | Hne]; [tauto|].
  apply IH. tauto.
Qed.

Lemma module_bindings_names h sol yul :
  map fst (module_bindings h sol yul) = module_names.
Proof. reflexivity. Qed.

Lemma assoc_last_bound h sol yul key :
  In key module_names ->
  exists v, forall d, assoc_last key (module_bindings h sol yul) d = Some v.
Proof.
  unfold module_names. simpl.
  intros Hkey. repeat (destruct Hkey as [<- | Hkey]; [eexists; intros d; reflexivity|]).
  destruct Hkey.
Qed.

Lemma dom_bind_all l : forall ns,
  dom (bind_all l ns) = list_to_set (map fst l) ∪ dom ns.
Proof.
  induction l as [|[k v] l IH]; intros ns; simpl.
  - symmetry. apply (left_id_L ∅ (∪)).
  - rewrite IH, dom_insert_L.
    rewrite (assoc_L (∪) (list_to_set (map fst l))).
    rewrite (comm_L (∪) (list_to_set (map fst l))). reflexivity.
Qed.

(** What a call of [setup] that returns has found and done. *)
Lemma setup_returned {G} `{Generator G} ns (g g' : G) :
  setup ns g = Return tt g' ->
  exists sol yul,
    ns !! "SolidityLexer" = Some sol /\ ns !! "YulLexer" = Some yul /\
    lexer_table g' = <["Yul" := yul]> (<["Solidity" := sol]> (lexer_table g)).
Proof.
  rewrite setup_outcome.
  destruct (ns !! "SolidityLexer") as [sol|]; [|discriminate].
  destruct (add_lexer "Solidity" sol g) as [[] g1|e g1] eqn:Hsol; [|discriminate].
  destruct (ns !! "YulLexer") as [yul|]; [|discriminate].
  intros Hyul. apply add_lexer_returns in Hsol, Hyul.
  exists sol, yul. rewrite Hyul, Hsol. repeat split.
Qed.

End more_module_facts.

(** X5.  When the lexer library is installed but has no [YulLexer], the
    load raises [ImportError] for that name after it has bound [os] and
    [SolidityLexer]: no command has been spawned, and no other name of the
    module has been bound. *)
Theorem missing_yul_lexer_aborts_load
  (h : host) (st : interp) (attrs : gmap string pyval) (sol : pyval) :
  site_packages h !! lexer_module = Some attrs ->
  attrs !! "SolidityLexer" = Some sol ->
  attrs !! "YulLexer" = None ->
  exists st',
    conf_py h st = Raise (ImportError lexer_module "YulLexer") st' /\
    spawned st' = spawned st /\
    globals st' !! "os" = Some (PModule "os") /\
    globals st' !! "SolidityLexer" = Some sol /\
    forall key, key <> "os" -> key <> "SolidityLexer" ->
                globals st' !! key = globals st !! key.
Proof.
  intros Hm Hsol Hyul. rewrite conf_py_outcome, Hm, Hsol, Hyul. cbv zeta.
  eexists. split; [reflexivity|]. cbn [globals spawned].
  split; [reflexivity|]. split; [|split].
  - rewrite lookup_insert_ne by discriminate. apply lookup_insert_eq.
  - apply lookup_insert_eq.
  - intros key Hos Hsl. rewrite !lookup_insert_ne by congruence. reflexivity.
Qed.

Lemma missing_yul_lexer_aborts_load_witness :
  exists st',
    conf_py (git_host without_yul solang_checkout) fresh
    = Raise (ImportError lexer_module "YulLexer") st' /\
    spawned st' = spawned fresh /\
    globals st' !! "os" = Some (PModule "os") /\
    globals st' !! "SolidityLexer" = Some SolidityLexer /\
    forall key, key <> "os" -> key <> "SolidityLexer" ->
                globals st' !! key = globals fresh !! key.
Proof.
  apply (missing_yul_lexer_aborts_load (git_host without_yul solang_checkout) fresh
           {[ "SolidityLexer" := SolidityLexer ]} SolidityLexer);
    reflexivity.
Defined.

(** X6.  The load raises an import error for the lexer library exactly when
    the library is missing or lacks one of the two classes, whatever the
    shell does; and a load stopped by such an error has spawned no
    command. *)
Theorem import_error_iff_library_incomplete (h : host) (st : interp) :
  (lexer_exports h = None <->
   exists e st', conf_py h st = Raise e st' /\ import_error e = true) /\
  (forall e st',
     conf_py h st = Raise e st' -> import_error e = true -> spawned st' = spawned st).
Proof.
  rewrite conf_py_outcome. unfold lexer_exports. cbv zeta.
  destruct (site_packages h !! lexer_module) as [attrs|].
  - destruct (attrs !! "SolidityLexer") as [sol|].
    + destruct (attrs !! "YulLexer") as [yul|].
      * split; [split|]; [discriminate | intros (e & st' & He & _); discriminate He
                         | intros e st' He; discriminate He].
      * split; [split; [intros _; eexists _, _; split; reflexivity | reflexivity]|].
        intros e st' [= <- <-] _. reflexivity.
    + split.
      * split; [intros _; eexists _, _; split; reflexivity|].
        intros _. destruct (attrs !! "YulLexer"); reflexivity.
      * intros e st' [= <- <-] _. reflexivity.
  - split; [split; [intros _; eexists _, _; split; reflexivity | reflexivity]|].
    intros e st' [= <- <-] _. reflexivity.
Qed.

(** X7.  A load leaves every name it does not bind itself as it found it:
    what the generator put into the namespace beforehand is still there. *)
Theorem load_keeps_other_names (h : host) (st st' : interp) (key : string) :
  conf_py h st = Return tt st' ->
  ~ In key module_names ->
  globals st' !! key = globals st !! key.
Proof.
  intros Hload Hkey.
  destruct (conf_py_returned h st st' Hload) as (sol & yul & _ & ->).
  rewrite loaded_lookup. apply assoc_last_other.
  rewrite module_bindings_names. exact Hkey.
Qed.

Lemma load_keeps_other_names_witness :
  globals (loaded (git_host with_lexers solang_checkout) SolidityLexer YulLexer
                  sphinx_namespace) !! "__file__"
  = globals sphinx_namespace !! "__file__".
Proof.
  apply (load_keeps_other_names (git_host with_lexers solang_checkout) sphinx_namespace).
  - vm_compute. reflexivity.
  - simpl. intuition discriminate.
Defined.

(** X8.  The names bound after a load are those bound before together with
    the fifteen names of the module. *)
Theorem load_binds_module_names (h : host) (st st' : interp) :
  conf_py h st = Return tt st' ->
  dom (globals st') = list_to_set module_names ∪ dom (globals st).
Proof.
  intros Hload.
  destruct (conf_py_returned h st st' Hload) as (sol & yul & _ & ->).
  unfold loaded. cbn [globals]. rewrite dom_bind_all, module_bindings_names. reflexivity.
Qed.

Lemma load_binds_module_names_witness :
  dom (globals (loaded padded_host SolidityLexer YulLexer sphinx_namespace))
  = list_to_set module_names ∪ dom (globals sphinx_namespace).
Proof.
  apply (load_binds_module_names padded_host sphinx_namespace).
  vm_compute. reflexivity.
Defined.

(** X9.  Of a child the load sees the standard output only.  Two hosts with
    the same packages whose two [git describe] children write the same to
    their standard output, whatever their exit status and their diagnostics,
    give the same outcome, state included. *)
Theorem load_sees_stdout_only (h1 h2 : host) (st : interp) :
  site_packages h1 = site_packages h2 ->
  stdout (shell h1 describe_nearest) = stdout (shell h2 describe_nearest) ->
  stdout (shell h1 describe_full) = stdout (shell h2 describe_full) ->
  conf_py h1 st = conf_py h2 st.
Proof.
  intros Hpkgs Hnearest Hfull. rewrite !conf_py_outcome, Hpkgs. cbv zeta.
  destruct (site_packages h2 !! lexer_module) as [attrs|]; [|reflexivity].
  destruct (attrs !! "SolidityLexer") as [sol|]; [|reflexivity].
  destruct (attrs !! "YulLexer") as [yul|]; [|reflexivity].
  unfold loaded, module_bindings. rewrite Hnearest, Hfull. reflexivity.
Qed.

Lemma load_sees_stdout_only_witness :
  conf_py (git_host with_lexers ToolAbsent) sphinx_namespace
  = conf_py (git_host with_lexers NoTags) sphinx_namespace.
Proof.
  apply (load_sees_stdout_only (git_host with_lexers ToolAbsent)
           (git_host with_lexers NoTags) sphinx_namespace);
    reflexivity.
Defined.

(** X10.  A load overwrites: each of the module's names is bound afterwards,
    to a value that does not depend on what the namespace held before. *)
Theorem load_overwrites_module_names
  (h : host) (st1 st2 st1' st2' : interp) (key : string) :
  conf_py h st1 = Return tt st1' ->
  conf_py h st2 = Return tt st2' ->
  In key module_names ->
  is_Some (globals st1' !! key) /\ globals st1' !! key = globals st2' !! key.
Proof.
  intros H1 H2 Hkey.
  destruct (conf_py_returned h st1 st1' H1) as (sol & yul & Hlex & ->).
  destruct (conf_py_returned h st2 st2' H2) as (sol' & yul' & Hlex' & ->).
  rewrite Hlex in Hlex'. injection Hlex' as <- <-.
  destruct (assoc_last_bound h sol yul key Hkey) as [v Hv].
  rewrite !loaded_lookup, !Hv. split; [eexists|]; reflexivity.
Qed.

Lemma load_overwrites_module_names_witness :
  is_Some (globals (loaded padded_host SolidityLexer YulLexer fresh) !! "version") /\
  globals (loaded padded_host SolidityLexer YulLexer fresh) !! "version"
  = globals (loaded padded_host SolidityLexer YulLexer
               (loaded two_line_host SolidityLexer YulLexer sphinx_namespace)) !! "version".
Proof.
  apply (load_overwrites_module_names padded_host fresh
           (loaded two_line_host SolidityLexer YulLexer sphinx_namespace)).
  - vm_compute. reflexivity.
  - vm_compute. reflexivity.
  - simpl. tauto.
Defined.

(** X11.  Only four names depend on the host: the two lexer classes and the
    two version strings.  Every other name has the same value after a load
    on any two hosts. *)
Theorem only_host_names_vary (h1 h2 : host) (st st1 st2 : interp) (key : string) :
  conf_py h1 st = Return tt st1 ->
  conf_py h2 st = Return tt st2 ->
  ~ In key host_names ->
  globals st1 !! key = globals st2 !! key.
Proof.
  intros H1 H2 Hkey.
  destruct (conf_py_returned h1 st st1 H1) as (sol1 & yul1 & _ & ->).
  destruct (conf_py_returned h2 st st2 H2) as (sol2 & yul2 & _ & ->).
  rewrite !loaded_lookup.
  destruct (in_dec string_dec key module_names) as [Hin | Hout].
  - simpl in Hin.
    repeat (destruct Hin as [<- | Hin];
            [first [exfalso; apply Hkey; simpl; tauto | reflexivity]|]).
    destruct Hin.
  - rewrite !assoc_last_other by (rewrite module_bindings_names; exact Hout).
    reflexivity.
Qed.

Lemma only_host_names_vary_witness :
  globals (loaded (git_host with_lexers ToolAbsent) SolidityLexer YulLexer fresh)
    !! "html_theme"
  = globals (loaded padded_host SolidityLexer YulLexer fresh) !! "html_theme".
Proof.
  apply (only_host_names_vary (git_host with_lexers ToolAbsent) padded_host fresh).
  - vm_compute. reflexivity.
  - vm_compute. reflexivity.
  - simpl. intuition discriminate.
Defined.

(** ** The hook *)

(** X12.  [setup] touches two aliases only: every other entry of the
    generator's lexer table is after a call that returns what it was
    before. *)
Theorem setup_keeps_other_lexers {G} `{Generator G}
  (ns : gmap string pyval) (g g' : G) (alias : string) :
  setup ns g = Return tt g' ->
  alias <> "Solidity" -> alias <> "Yul" ->
  lexer_table g' !! alias = lexer_table g !! alias.
Proof.
  intros Hsetup Hsol Hyul.
  destruct (setup_returned ns g g' Hsetup) as (sol & yul & _ & _ & ->).
  rewrite !lookup_insert_ne by congruence. reflexivity.
Qed.

Lemma setup_keeps_other_lexers_witness :
  lexer_table
    {| lexer_classes :=
         <["Yul" := YulLexer]> (<["Solidity" := SolidityLexer]> (lexer_classes used_app)) |}
    !! "python"
  = lexer_table used_app !! "python".
Proof.
  apply (setup_keeps_other_lexers
           (globals (loaded padded_host SolidityLexer YulLexer fresh)) used_app).
  - vm_compute. reflexivity.
  - discriminate.
  - discriminate.
Defined.

(** X13.  Calling the hook a second time changes nothing: the lexer table
    after two calls is the table after one. *)
Theorem setup_twice_is_setup_once {G} `{Generator G}
  (ns : gmap string pyval) (g g1 g2 : G) :
  setup ns g = Return tt g1 ->
  setup ns g1 = Return tt g2 ->
  lexer_table g2 = lexer_table g1.
Proof.
  intros Hfirst Hsecond.
  destruct (setup_returned ns g g1 Hfirst) as (sol & yul & Hsol & Hyul & Hg1).
  destruct (setup_returned ns g1 g2 Hsecond) as (sol' & yul' & Hsol' & Hyul' & ->).
  rewrite Hsol in Hsol'. rewrite Hyul in Hyul'.
  injection Hsol' as <-. injection Hyul' as <-.
  rewrite Hg1. apply map_eq. intros alias.
  destruct (decide (alias = "Yul")) as [-> | HnY].
  - rewrite !lookup_insert_eq. reflexivity.
  - rewrite (lookup_insert_ne _ "Yul" alias) by congruence.
    destruct (decide (alias = "Solidity")) as [-> | HnS].
    + rewrite lookup_insert_eq.
      rewrite (lookup_insert_ne _ "Yul" "Solidity") by discriminate.
      rewrite lookup_insert_eq. reflexivity.
    + rewrite !lookup_insert_ne by congruence. reflexivity.
Qed.

Lemma setup_twice_is_setup_once_witness :
  lexer_table
    {| lexer_classes :=
         <["Yul" := YulLexer]> (<["Solidity" := SolidityLexer]>
           (<["Yul" := YulLexer]> (<["Solidity" := SolidityLexer]> (lexer_classes used_app)))) |}
  = lexer_table
      {| lexer_classes :=
           <["Yul" := YulLexer]> (<["Solidity" := SolidityLexer]> (lexer_classes used_app)) |}.
Proof.
  apply (setup_twice_is_setup_once
           (globals (loaded padded_host SolidityLexer YulLexer fresh)) used_app);
    vm_compute; reflexivity.
Defined.

(** X14.  After a load that returned, the hook finds both classes: called
    with any generator it is the two [add_lexer] calls in sequence, with the
    classes the library exports, so that it raises only what [add_lexer]
    raises, and never [NameError]. *)
Theorem setup_after_load_is_two_calls {G} `{Generator G}
  (h : host) (st st' : interp) (sol yul : pyval) (g : G) :
  lexer_exports h = Some (sol, yul) ->
  conf_py h st = Return tt st' ->
  setup (globals st') g
  = (add_lexer "Solidity" sol >> add_lexer "Yul" yul) g.
Proof.
  intros Hlex Hload.
  rewrite (conf_py_returns h st sol yul Hlex) in Hload.
  assert (Hst : st' = loaded h sol yul st) by congruence. subst st'.
  rewrite setup_outcome, !loaded_lookup. unfold bind.
  change (assoc_last "SolidityLexer" _ _) with (Some sol).
  change (assoc_last "YulLexer" _ _) with (Some yul).
  cbv beta iota.
  destruct (add_lexer "Solidity" sol g) as [[] g1|e g1]; reflexivity.
Qed.

Lemma setup_after_load_is_two_calls_witness :
  setup (globals (loaded padded_host SolidityLexer YulLexer sphinx_namespace)) used_app
  = (add_lexer "Solidity" SolidityLexer >> add_lexer "Yul" YulLexer) used_app.
Proof.
  apply (setup_after_load_is_two_calls padded_host sphinx_namespace
           (loaded padded_host SolidityLexer YulLexer sphinx_namespace)
           SolidityLexer YulLexer used_app);
    vm_compute; reflexivity.
Defined.
